(** * Session controller (server/api/session/session.controller.js)

    A shallow embedding of the REST controller of the Session resource and
    the properties of its six handlers.

    The controller talks to three collaborators that live outside the file:
    the Sequelize model [Sessions] (and the instances it resolves with), the
    [fast-json-patch] library, and the Express response object [res].  The
    first two are taken as parameters; the third is modelled as the sequence
    of calls the handler makes on it.  A run of a handler is the chronological
    list of calls it made on its collaborators. *)

From stdpp Require Import gmap strings list fin_maps.
From Stdlib Require Import ZArith Ascii.

Local Open Scope Z_scope.
Set Warnings "-register-all".

(** ** JavaScript values *)

(** The values that flow through the controller.  Objects are finite maps
    from property names to values.  Numbers are restricted to integers: the
    controller only ever tests a number for truthiness.  [VErr] is a native
    error object, [VRes] is the Express response object (what
    [res.status(..).json(..)] returns for chaining). *)
Inductive value :=
| VUndefined
| VNull
| VBool (b : bool)
| VNum (n : Z)
| VStr (s : string)
| VArr (items : list value)
| VObj (fields : gmap string value)
| VErr (name message : string)
| VRes.

(** [if (v)]: [undefined], [null], [false], [0] and the empty string are
    falsy, everything else (every object and array, also empty) is truthy. *)
Definition truthy (v : value) : bool :=
  match v with
  | VUndefined | VNull => false
  | VBool b => b
  | VNum n => negb (n =? 0)
  | VStr s => negb (String.eqb s "")
  | VArr _ | VObj _ | VErr _ _ | VRes => true
  end.

Definition nullish (v : value) : bool :=
  match v with
  | VUndefined | VNull => true
  | _ => false
  end.

(** An expression either yields a value or throws. *)
Inductive completion (A : Type) :=
| Normal (a : A)
| Throw (exn : value).
Arguments Normal {A} a.
Arguments Throw {A} exn.

Definition type_error (message : string) : value := VErr "TypeError" message.

(** [v.id]: reading a property of [undefined] or [null] throws; an object
    yields the property or [undefined]; no other value has an [id]. *)
Definition get_id (v : value) : completion value :=
  match v with
  | VUndefined => Throw (type_error "Cannot read property 'id' of undefined")
  | VNull => Throw (type_error "Cannot read property 'id' of null")
  | VObj fields => Normal (default VUndefined (fields !! "id"))
  | _ => Normal VUndefined
  end.

(** [delete v.id], on a value whose [id] could be read. *)
Definition delete_id (v : value) : value :=
  match v with
  | VObj fields => VObj (delete "id" fields)
  | _ => v
  end.

(** [statusCode = statusCode || dflt]: a missing argument and [0] both give
    the default. *)
Definition or_default (statusCode : option Z) (dflt : Z) : Z :=
  match statusCode with
  | Some c => if c =? 0 then dflt else c
  | None => dflt
  end.

(** ** Runs *)

(** The calls a handler makes on its collaborators: the datastore
    ([Sessions.findAll()], [Sessions.find({where: {id}})],
    [Sessions.create(data)], [Sessions.upsert(data, {where: {id}})],
    [entity.save()], [entity.destroy()]), the patch library
    ([jsonpatch.apply(entity, patches, true)]) and the response
    ([res.status(c).json(v)], [res.status(c).end()], [res.status(c).send(e)]). *)
Inductive event :=
| EFindAll
| EFind (where_id : value)
| ECreate (data : value)
| EUpsert (data where_id : value)
| ESave (entity : value)
| EDestroy (entity : value)
| EApply (entity patches : value)
| EJson (status : Z) (payload : value)
| EEnd (status : Z)
| ESend (status : Z) (payload : value).

(** Computations thread the run so far. *)
Definition M (A : Type) : Type := list event → A * list event.

#[global] Instance M_ret : MRet M := λ A a t, (a, t).
#[global] Instance M_bind : MBind M :=
  λ A B k m t, let '(a, t') := m t in k a t'.

Definition emit (e : event) : M unit := λ t, (tt, t ++ [e]).

Definition trace {A : Type} (m : M A) : list event := (m []).2.
Definition result {A : Type} (m : M A) : A := (m []).1.

(** What a run holds: the bodies handed to [Sessions.create], the data and
    filters handed to [Sessions.upsert], the entities [save] was called on,
    and the writes to the response. *)
Definition creates (t : list event) : list value :=
  omap (λ e, match e with ECreate data => Some data | _ => None end) t.

Definition upserts (t : list event) : list (value * value) :=
  omap (λ e, match e with
             | EUpsert data where_id => Some (data, where_id)
             | _ => None
             end) t.

Definition saves (t : list event) : list value :=
  omap (λ e, match e with ESave entity => Some entity | _ => None end) t.

Definition destroys (t : list event) : list value :=
  omap (λ e, match e with EDestroy entity => Some entity | _ => None end) t.

Definition is_response (e : event) : bool :=
  match e with
  | EJson _ _ | EEnd _ | ESend _ _ => true
  | _ => false
  end.

Definition responses (t : list event) : list event :=
  List.filter is_response t.

(** The status codes of the writes to the response, and the calls that went
    to the datastore. *)
Definition statuses (t : list event) : list Z :=
  omap (λ e, match e with
             | EJson c _ | EEnd c | ESend c _ => Some c
             | _ => None
             end) t.

Definition is_datastore_call (e : event) : bool :=
  match e with
  | EFindAll | EFind _ | ECreate _ | EUpsert _ _ | ESave _ | EDestroy _ => true
  | _ => false
  end.

Definition datastore_calls (t : list event) : list event :=
  List.filter is_datastore_call t.

(** ** Promises *)

(** How a deferred result settles. *)
Inductive outcome :=
| Resolved (v : value)
| Rejected (reason : value).

(** A promise chain of one request is a straight line, so a promise is
    modelled by the computation that produces its outcome.  A callback
    handed to [then] or [catch] is a function to a promise: returning a plain
    value resolves, throwing rejects, returning a promise adopts it. *)
Definition promise : Type := M outcome.

Definition then_ (p : promise) (onFulfilled : value → promise) : promise :=
  o ← p;
  match o with
  | Resolved v => onFulfilled v
  | Rejected e => mret (Rejected e)
  end.

Definition catch_ (p : promise) (onRejected : value → promise) : promise :=
  o ← p;
  match o with
  | Resolved v => mret (Resolved v)
  | Rejected e => onRejected e
  end.

(** ** The datastore *)

(** The Sequelize model, as the controller uses it.  Every primitive returns
    a deferred result; what it settles with is the datastore's business.
    [save] and [destroy] are the methods of the instances [find] resolves
    with. *)
Module Sessions.
Record model := {
  findAll : outcome;
  find : value → outcome;
  create : value → outcome;
  upsert : value → value → outcome;
  save : value → outcome;
  destroy : value → outcome
}.
End Sessions.

Record request := {
  params_id : value;
  body : value
}.

(** ** The controller *)

(** The combinators of the source take [res] as their first argument; here
    their writes to it go to the run. *)

Section Controller.

Variable db : Sessions.model.

(** [jsonpatch.apply(entity, patches, true)] mutates [entity] in place or
    throws; [Normal fields] gives the properties of the object after the
    mutation. *)
Variable jsonpatch_apply : value → value → completion (gmap string value).

Definition Sessions_findAll : promise :=
  emit EFindAll;; mret (Sessions.findAll db).

Definition Sessions_find (where_id : value) : promise :=
  emit (EFind where_id);; mret (Sessions.find db where_id).

Definition Sessions_create (data : value) : promise :=
  emit (ECreate data);; mret (Sessions.create db data).

Definition Sessions_upsert (data where_id : value) : promise :=
  emit (EUpsert data where_id);; mret (Sessions.upsert db data where_id).

(** [entity.save()] inside a [then] callback.  Only objects (the instances
    the datastore resolves with) carry the method; on anything else the
    call throws a TypeError, which rejects the derived promise. *)
Definition entity_save (entity : value) : promise :=
  match entity with
  | VObj _ => emit (ESave entity);; mret (Sessions.save db entity)
  | VUndefined =>
      mret (Rejected (type_error "Cannot read property 'save' of undefined"))
  | VNull =>
      mret (Rejected (type_error "Cannot read property 'save' of null"))
  | _ => mret (Rejected (type_error "entity.save is not a function"))
  end.

(** [entity.destroy()], likewise. *)
Definition entity_destroy (entity : value) : promise :=
  match entity with
  | VObj _ => emit (EDestroy entity);; mret (Sessions.destroy db entity)
  | VUndefined =>
      mret (Rejected (type_error "Cannot read property 'destroy' of undefined"))
  | VNull =>
      mret (Rejected (type_error "Cannot read property 'destroy' of null"))
  | _ => mret (Rejected (type_error "entity.destroy is not a function"))
  end.

Definition respondWithResult (statusCode : option Z) (entity : value) : promise :=
  let statusCode := or_default statusCode 200 in
  if truthy entity then
    emit (EJson statusCode entity);; mret (Resolved VRes)
  else mret (Resolved VNull).

(** The binding [entity] still names the same object after the library
    call: an object carries its new properties, any other value is what it
    was. *)
Definition mutated (entity : value) (fields : gmap string value) : value :=
  match entity with
  | VObj _ => VObj fields
  | _ => entity
  end.

Definition patchUpdates (patches : value) (entity : value) : promise :=
  emit (EApply entity patches);;
  match jsonpatch_apply entity patches with
  | Throw err => mret (Rejected err)
  | Normal fields => entity_save (mutated entity fields)
  end.

Definition removeEntity (entity : value) : promise :=
  if truthy entity then
    then_ (entity_destroy entity)
          (λ _, emit (EEnd 204);; mret (Resolved VUndefined))
  else mret (Resolved VUndefined).

Definition handleEntityNotFound (entity : value) : promise :=
  if negb (truthy entity) then
    emit (EEnd 404);; mret (Resolved VNull)
  else mret (Resolved entity).

Definition handleError (statusCode : option Z) (err : value) : promise :=
  let statusCode := or_default statusCode 500 in
  emit (ESend statusCode err);; mret (Resolved VUndefined).

(** [if (req.body.id) { delete req.body.id; }]: the body as the rest of the
    handler sees it, or the TypeError of reading [id] off a missing body. *)
Definition strip_id (body : value) : completion value :=
  match get_id body with
  | Throw e => Throw e
  | Normal id => Normal (if truthy id then delete_id body else body)
  end.

Definition index (req : request) : promise :=
  catch_ (then_ Sessions_findAll (respondWithResult None)) (handleError None).

Definition show (req : request) : promise :=
  catch_
    (then_ (then_ (Sessions_find (params_id req)) handleEntityNotFound)
           (respondWithResult None))
    (handleError None).

Definition create (req : request) : promise :=
  catch_ (then_ (Sessions_create (body req)) (respondWithResult (Some 201)))
         (handleError None).

(** [upsert] and [patch] read [req.body.id] before they build their chain:
    they either throw there or return the promise. *)
Definition upsert (req : request) : M (completion outcome) :=
  match strip_id (body req) with
  | Throw e => mret (Throw e)
  | Normal data =>
      o ← catch_
            (then_ (Sessions_upsert data (params_id req))
                   (respondWithResult None))
            (handleError None);
      mret (Normal o)
  end.

Definition patch (req : request) : M (completion outcome) :=
  match strip_id (body req) with
  | Throw e => mret (Throw e)
  | Normal patches =>
      o ← catch_
            (then_
               (then_
                  (then_ (Sessions_find (params_id req)) handleEntityNotFound)
                  (patchUpdates patches))
               (respondWithResult None))
            (handleError None);
      mret (Normal o)
  end.

Definition destroy (req : request) : promise :=
  catch_
    (then_ (then_ (Sessions_find (params_id req)) handleEntityNotFound)
           removeEntity)
    (handleError None).

End Controller.

Arguments index db req : rename.
Arguments show db req : rename.
Arguments create db req : rename.
Arguments upsert db req : rename.
Arguments destroy db req : rename.
Arguments patch db jsonpatch_apply req : rename.

(** ** The tail of the [patch] chain *)

(** What the [patch] chain does once the library has applied the document:
    [entity.save()], then [respondWithResult] or [handleError], written out
    as the calls they make. *)
Definition save_and_respond (db : Sessions.model) (entity : value) : list event :=
  match entity with
  | VObj _ =>
      ESave entity ::
      match Sessions.save db entity with
      | Resolved v => if truthy v then [EJson 200 v] else []
      | Rejected err => [ESend 500 err]
      end
  | VUndefined =>
      [ESend 500 (type_error "Cannot read property 'save' of undefined")]
  | VNull => [ESend 500 (type_error "Cannot read property 'save' of null")]
  | _ => [ESend 500 (type_error "entity.save is not a function")]
  end.

(** ** The tail of the [destroy] chain *)

(** What [removeEntity] does on a truthy entity: [entity.destroy()], then
    the 204 or [handleError], written out as the calls they make. *)
Definition delete_and_respond (db : Sessions.model) (entity : value) : list event :=
  match entity with
  | VObj _ =>
      EDestroy entity ::
      match Sessions.destroy db entity with
      | Resolved _ => [EEnd 204]
      | Rejected err => [ESend 500 err]
      end
  | VUndefined =>
      [ESend 500 (type_error "Cannot read property 'destroy' of undefined")]
  | VNull => [ESend 500 (type_error "Cannot read property 'destroy' of null")]
  | _ => [ESend 500 (type_error "entity.destroy is not a function")]
  end.

(** ** Collaborators to run the handlers against *)

(** A datastore all of whose primitives settle the same way. *)
Definition const_db (o : outcome) : Sessions.model := {|
  Sessions.findAll := o;
  Sessions.find := λ _, o;
  Sessions.create := λ _, o;
  Sessions.upsert := λ _ _, o;
  Sessions.save := λ _, o;
  Sessions.destroy := λ _, o
|}.

Definition connection_error : value :=
  VErr "SequelizeConnectionError" "connect ECONNREFUSED".

Definition offline_db : Sessions.model := const_db (Rejected connection_error).

Definition stored_session : value :=
  VObj {[ "id" := VNum 1; "name" := VStr "s1" ]}.

Definition is_stored_id (where_id : value) : bool :=
  match where_id with
  | VStr s => String.eqb s "1"
  | VNum n => n =? 1
  | _ => false
  end.

(** A table holding one session, with Sequelize's conventions: [find]
    resolves with the instance or [null], [create] with the new instance,
    [upsert] with the flag telling whether a row was created, [save] with
    the instance. *)
Definition memory_db : Sessions.model := {|
  Sessions.findAll := Resolved (VArr [stored_session]);
  Sessions.find := λ where_id,
    if is_stored_id where_id then Resolved stored_session else Resolved VNull;
  Sessions.create := λ data,
    match data with
    | VObj fields =>
        match fields !! "id" with
        | Some _ => Resolved data
        | None => Resolved (VObj (<["id" := VNum 2]> fields))
        end
    | _ => Rejected (VErr "SequelizeValidationError" "not a record")
    end;
  Sessions.upsert := λ _ where_id, Resolved (VBool (negb (is_stored_id where_id)));
  Sessions.save := λ entity, Resolved entity;
  Sessions.destroy := λ _, Resolved VUndefined
|}.

Definition write_error : value :=
  VErr "SequelizeDatabaseError" "attempt to write a readonly database".

(** The same table behind a connection that refuses every write. *)
Definition readonly_db : Sessions.model := {|
  Sessions.findAll := Sessions.findAll memory_db;
  Sessions.find := Sessions.find memory_db;
  Sessions.create := λ _, Rejected write_error;
  Sessions.upsert := λ _ _, Rejected write_error;
  Sessions.save := λ _, Rejected write_error;
  Sessions.destroy := λ _, Rejected write_error
|}.

(** A stand-in for the patch library on single-level paths ([/name]), enough
    to run [patch] on concrete documents: [add], [replace] and [remove] of a
    member of the record, every other document is refused. *)
Definition patch_error (name : string) : value := VErr "JsonPatchError" name.

Definition member_of_path (path : string) : option string :=
  match path with
  | String c key => if Ascii.eqb c "/"%char then Some key else None
  | EmptyString => None
  end.

Definition apply_operation (fields : gmap string value) (operation : value)
  : completion (gmap string value) :=
  match operation with
  | VObj o =>
      match o !! "op", o !! "path" with
      | Some (VStr op), Some (VStr path) =>
          match member_of_path path with
          | Some key =>
              if String.eqb op "replace" then
                match fields !! key, o !! "value" with
                | Some _, Some v => Normal (<[key := v]> fields)
                | None, _ => Throw (patch_error "OPERATION_PATH_UNRESOLVABLE")
                | _, None => Throw (patch_error "OPERATION_VALUE_REQUIRED")
                end
              else if String.eqb op "add" then
                match o !! "value" with
                | Some v => Normal (<[key := v]> fields)
                | None => Throw (patch_error "OPERATION_VALUE_REQUIRED")
                end
              else if String.eqb op "remove" then
                match fields !! key with
                | Some _ => Normal (delete key fields)
                | None => Throw (patch_error "OPERATION_PATH_UNRESOLVABLE")
                end
              else Throw (patch_error "OPERATION_OP_INVALID")
          | None => Throw (patch_error "OPERATION_PATH_INVALID")
          end
      | _, _ => Throw (patch_error "OPERATION_OP_INVALID")
      end
  | _ => Throw (patch_error "OPERATION_NOT_AN_OBJECT")
  end.

Fixpoint apply_operations (fields : gmap string value) (operations : list value)
  : completion (gmap string value) :=
  match operations with
  | [] => Normal fields
  | operation :: rest =>
      match apply_operation fields operation with
      | Normal fields' => apply_operations fields' rest
      | Throw err => Throw err
      end
  end.

Definition sample_jsonpatch (entity patches : value)
  : completion (gmap string value) :=
  match patches with
  | VArr operations =>
      match entity, operations with
      | VObj fields, _ => apply_operations fields operations
      | _, [] => Normal ∅
      | _, _ :: _ => Throw (type_error "Cannot read property of a non-object")
      end
  | _ => Throw (patch_error "SEQUENCE_NOT_AN_ARRAY")
  end.

Definition replace_op (path : string) (v : value) : value :=
  VObj {[ "op" := VStr "replace"; "path" := VStr path; "value" := v ]}.

Definition rename_request : request :=
  {| params_id := VStr "1"; body := VArr [replace_op "/name" (VStr "s2")] |}.

Definition renamed_session : value :=
  VObj {[ "id" := VNum 1; "name" := VStr "s2" ]}.

(** ** Running a chain *)

Ltac run :=
  cbv beta iota delta
    [trace result index show create upsert patch destroy then_ catch_
     Sessions_findAll Sessions_find Sessions_create Sessions_upsert
     respondWithResult handleEntityNotFound handleError removeEntity
     patchUpdates or_default emit mbind M_bind mret M_ret];
  cbn.

Ltac settle H := rewrite H; run.

(** A computed list of status codes lies within the listed ones. *)
Ltac within :=
  let c := fresh "c" in
  let Hc := fresh "Hc" in
  intros c Hc; cbn in Hc;
  repeat (apply elem_of_cons in Hc; destruct Hc as [-> | Hc]);
  [repeat (apply elem_of_cons; first [by left | right]) ..
  | by apply elem_of_nil in Hc].

(** Membership in a run that has been computed. *)
Ltac members H :=
  repeat (apply elem_of_cons in H; destruct H as [H | H]);
  [.. | by apply elem_of_nil in H].

(** ** show *)

(** C6: [show(id)] answers 200 with the record when the datastore finds one
    for the id, and 404 with an empty body when it finds none. *)
Theorem show_found_or_missing (db : Sessions.model) (req : request) :
  (∀ fields, Sessions.find db (params_id req) = Resolved (VObj fields) →
     trace (show db req) = [EFind (params_id req); EJson 200 (VObj fields)]) ∧
  (Sessions.find db (params_id req) = Resolved VNull →
     trace (show db req) = [EFind (params_id req); EEnd 404]).
Proof.
  split; [intros fields Hfind | intros Hfind]; run; by settle Hfind.
Qed.

Lemma show_found_or_missing_witness :
  trace (show memory_db {| params_id := VStr "1"; body := VUndefined |})
    = [EFind (VStr "1"); EJson 200 stored_session] ∧
  trace (show memory_db {| params_id := VStr "9"; body := VUndefined |})
    = [EFind (VStr "9"); EEnd 404].
Proof.
  split.
  - apply (proj1 (show_found_or_missing memory_db
                    {| params_id := VStr "1"; body := VUndefined |})).
    reflexivity.
  - apply (proj2 (show_found_or_missing memory_db
                    {| params_id := VStr "9"; body := VUndefined |})).
    reflexivity.
Defined.

(** ** index *)

(** C8: [index()] answers 200 with the list [findAll] resolves with, as it
    is and also when it is empty; when [findAll] rejects it answers 500 with
    the error. *)
Theorem index_lists_or_fails (db : Sessions.model) (req : request) :
  (∀ items, Sessions.findAll db = Resolved (VArr items) →
     trace (index db req) = [EFindAll; EJson 200 (VArr items)]) ∧
  (∀ err, Sessions.findAll db = Rejected err →
     trace (index db req) = [EFindAll; ESend 500 err]).
Proof.
  split; [intros items Hall | intros err Hall]; run; by settle Hall.
Qed.

Lemma index_lists_or_fails_witness :
  trace (index memory_db {| params_id := VUndefined; body := VUndefined |})
    = [EFindAll; EJson 200 (VArr [stored_session])] ∧
  trace (index (const_db (Resolved (VArr [])))
           {| params_id := VUndefined; body := VUndefined |})
    = [EFindAll; EJson 200 (VArr [])] ∧
  trace (index offline_db {| params_id := VUndefined; body := VUndefined |})
    = [EFindAll; ESend 500 connection_error].
Proof.
  split; [| split].
  - apply (proj1 (index_lists_or_fails memory_db
                    {| params_id := VUndefined; body := VUndefined |})).
    reflexivity.
  - apply (proj1 (index_lists_or_fails (const_db (Resolved (VArr [])))
                    {| params_id := VUndefined; body := VUndefined |})).
    reflexivity.
  - apply (proj2 (index_lists_or_fails offline_db
                    {| params_id := VUndefined; body := VUndefined |})).
    reflexivity.
Defined.

(** ** destroy *)

(** C5: [destroy(id)] first fetches the record.  Without a record it answers
    404 with an empty body and deletes nothing; with a record it deletes it
    and then answers 204 with an empty body; when the fetch or the deletion
    fails it answers 500. *)
Theorem destroy_outcomes (db : Sessions.model) (req : request) :
  (Sessions.find db (params_id req) = Resolved VNull →
     trace (destroy db req) = [EFind (params_id req); EEnd 404]) ∧
  (∀ fields v,
     Sessions.find db (params_id req) = Resolved (VObj fields) →
     Sessions.destroy db (VObj fields) = Resolved v →
     trace (destroy db req)
       = [EFind (params_id req); EDestroy (VObj fields); EEnd 204]) ∧
  (∀ err, Sessions.find db (params_id req) = Rejected err →
     trace (destroy db req) = [EFind (params_id req); ESend 500 err]) ∧
  (∀ fields err,
     Sessions.find db (params_id req) = Resolved (VObj fields) →
     Sessions.destroy db (VObj fields) = Rejected err →
     trace (destroy db req)
       = [EFind (params_id req); EDestroy (VObj fields); ESend 500 err]).
Proof.
  split; [| split; [| split]].
  - intros Hfind. run. by settle Hfind.
  - intros fields v Hfind Hdel. run. settle Hfind. by settle Hdel.
  - intros err Hfind. run. by settle Hfind.
  - intros fields err Hfind Hdel. run. settle Hfind. by settle Hdel.
Qed.

Lemma destroy_outcomes_witness :
  trace (destroy memory_db {| params_id := VStr "9"; body := VUndefined |})
    = [EFind (VStr "9"); EEnd 404] ∧
  trace (destroy memory_db {| params_id := VStr "1"; body := VUndefined |})
    = [EFind (VStr "1"); EDestroy stored_session; EEnd 204] ∧
  trace (destroy offline_db {| params_id := VStr "1"; body := VUndefined |})
    = [EFind (VStr "1"); ESend 500 connection_error] ∧
  trace (destroy readonly_db {| params_id := VStr "1"; body := VUndefined |})
    = [EFind (VStr "1"); EDestroy stored_session; ESend 500 write_error].
Proof.
  pose proof (destroy_outcomes memory_db
                {| params_id := VStr "9"; body := VUndefined |}) as [H9 _].
  pose proof (destroy_outcomes memory_db
                {| params_id := VStr "1"; body := VUndefined |}) as (_ & H1 & _).
  pose proof (destroy_outcomes offline_db
                {| params_id := VStr "1"; body := VUndefined |}) as (_ & _ & Hoff & _).
  pose proof (destroy_outcomes readonly_db
                {| params_id := VStr "1"; body := VUndefined |}) as (_ & _ & _ & Hro).
  split; [| split; [| split]].
  - apply H9. reflexivity.
  - apply (H1 _ VUndefined); reflexivity.
  - apply Hoff. reflexivity.
  - apply Hro; reflexivity.
Defined.

(** ** create *)

(** C10: [create(body)] hands the request body to the datastore's [create]
    as it is: nothing is stripped, so an [id] the client supplied is
    forwarded.  The run starts with that call, made once, on the body. *)
Theorem create_forwards_body (db : Sessions.model) (req : request) :
  (∃ rest, trace (create db req) = ECreate (body req) :: rest) ∧
  creates (trace (create db req)) = [body req] ∧
  upserts (trace (create db req)) = [] ∧
  saves (trace (create db req)) = [].
Proof.
  run. destruct (Sessions.create db (body req)) as [v | err]; run;
    [destruct (truthy v); run |]; eauto.
Qed.

Example create_forwards_client_id :
  creates (trace (create memory_db
     {| params_id := VUndefined;
        body := VObj {[ "id" := VNum 7; "name" := VStr "s2" ]} |}))
  = [VObj {[ "id" := VNum 7; "name" := VStr "s2" ]}].
Proof. reflexivity. Qed.

(** ** upsert *)

(** The handler gets past [req.body.id] exactly when the body is neither
    [undefined] nor [null]. *)
Lemma strip_id_readable (b : value) :
  nullish b = false ↔ ∃ data, strip_id b = Normal data.
Proof.
  unfold strip_id. split.
  - destruct b; cbn; try discriminate; eauto.
  - intros [data H]. by destruct b.
Qed.

(** A patch document, an array of operations, has no [id] to delete. *)
Lemma strip_id_array (operations : list value) :
  strip_id (VArr operations) = Normal (VArr operations).
Proof. reflexivity. Qed.

Lemma strip_id_truthy (fields : gmap string value) (id : value) :
  fields !! "id" = Some id → truthy id = true →
  strip_id (VObj fields) = Normal (VObj (delete "id" fields)).
Proof. intros Hid Ht. unfold strip_id. cbn. rewrite Hid. cbn. by rewrite Ht. Qed.

Lemma get_id_deleted (fields : gmap string value) :
  get_id (VObj (delete "id" fields)) = Normal VUndefined.
Proof. cbn. by rewrite lookup_delete_eq. Qed.

Lemma upsert_run (db : Sessions.model) (req : request) (data : value) :
  strip_id (body req) = Normal data →
  trace (upsert db req)
    = EUpsert data (params_id req) ::
      match Sessions.upsert db data (params_id req) with
      | Resolved v => if truthy v then [EJson 200 v] else []
      | Rejected err => [ESend 500 err]
      end.
Proof.
  intros Hbody. run. settle Hbody.
  destruct (Sessions.upsert db data (params_id req)) as [v | err]; run;
    [by destruct (truthy v) | done].
Qed.

Lemma upsert_truthy_id_run
    (db : Sessions.model) (req : request) (fields : gmap string value) (id : value) :
  body req = VObj fields → fields !! "id" = Some id → truthy id = true →
  upserts (trace (upsert db req)) = [(VObj (delete "id" fields), params_id req)].
Proof.
  intros Hbody Hid Ht.
  rewrite (upsert_run db req (VObj (delete "id" fields))).
  - cbn. destruct (Sessions.upsert db _ _) as [v | err];
      [by destruct (truthy v) | done].
  - rewrite Hbody. by eapply strip_id_truthy.
Qed.

(** C4, as the code has it: when the body carries a truthy [id], [upsert]
    deletes it before the datastore's upsert is called, whether or not it
    equals the id of the path; the datastore gets the body without [id],
    every other member as it was. *)
Theorem upsert_strips_truthy_id
    (db : Sessions.model) (req : request) (fields : gmap string value) (id : value) :
  body req = VObj fields → fields !! "id" = Some id → truthy id = true →
  upserts (trace (upsert db req)) = [(VObj (delete "id" fields), params_id req)] ∧
  get_id (VObj (delete "id" fields)) = Normal VUndefined ∧
  (∀ k : string, k ≠ "id" → delete "id" fields !! k = fields !! k).
Proof.
  intros Hbody Hid Ht. split; [| split].
  - by eapply upsert_truthy_id_run.
  - apply get_id_deleted.
  - intros k Hk. by rewrite lookup_delete_ne.
Qed.

Lemma upsert_strips_truthy_id_witness :
  upserts (trace (upsert memory_db
     {| params_id := VStr "1";
        body := VObj {[ "id" := VNum 7; "name" := VStr "s2" ]} |}))
  = [(VObj {[ "name" := VStr "s2" ]}, VStr "1")].
Proof.
  destruct (upsert_strips_truthy_id memory_db
              {| params_id := VStr "1";
                 body := VObj {[ "id" := VNum 7; "name" := VStr "s2" ]} |}
              {[ "id" := VNum 7; "name" := VStr "s2" ]} (VNum 7))
    as [Hcall _]; [reflexivity | reflexivity | reflexivity | exact Hcall].
Defined.

(** C4 fails on a falsy [id]: [0] is left in the body and reaches the
    datastore. *)
Lemma upsert_keeps_zero_id :
  upserts (trace (upsert memory_db
     {| params_id := VStr "1";
        body := VObj {[ "id" := VNum 0; "name" := VStr "s2" ]} |}))
  = [(VObj {[ "id" := VNum 0; "name" := VStr "s2" ]}, VStr "1")] ∧
  get_id (VObj {[ "id" := VNum 0; "name" := VStr "s2" ]}) = Normal (VNum 0) ∧
  ¬ (∀ req data where_id,
       (data, where_id) ∈ upserts (trace (upsert memory_db req)) →
       get_id data = Normal VUndefined).
Proof.
  split; [reflexivity | split; [reflexivity |]].
  intros Hall.
  specialize (Hall
    {| params_id := VStr "1";
       body := VObj {[ "id" := VNum 0; "name" := VStr "s2" ]} |}
    (VObj {[ "id" := VNum 0; "name" := VStr "s2" ]}) (VStr "1")).
  discriminate Hall. apply list_elem_of_singleton. reflexivity.
Qed.

(** What [upsert] writes once the datastore's upsert has resolved: the 200
    with the value when it is truthy, nothing when it is falsy. *)
Theorem upsert_answers_truthy_result
    (db : Sessions.model) (req : request) (data v : value) :
  strip_id (body req) = Normal data →
  Sessions.upsert db data (params_id req) = Resolved v →
  trace (upsert db req)
    = EUpsert data (params_id req) :: (if truthy v then [EJson 200 v] else []).
Proof.
  intros Hbody Hup. rewrite (upsert_run db req data Hbody). by rewrite Hup.
Qed.

Lemma upsert_answers_truthy_result_witness :
  trace (upsert memory_db
     {| params_id := VStr "2"; body := VObj {[ "name" := VStr "s2" ]} |})
  = [EUpsert (VObj {[ "name" := VStr "s2" ]}) (VStr "2"); EJson 200 (VBool true)].
Proof.
  apply (upsert_answers_truthy_result memory_db
           {| params_id := VStr "2"; body := VObj {[ "name" := VStr "s2" ]} |}
           (VObj {[ "name" := VStr "s2" ]}) (VBool true));
    reflexivity.
Defined.

(** C7, on the code: [upsert] does not answer with every value the
    datastore's upsert resolves with.  Updating the stored session, the
    datastore resolves with [false] (no row was created); the chain reaches
    [respondWithResult], whose [if (entity)] skips the write, and the request
    is left without any response. *)
Theorem upsert_update_unanswered :
  Sessions.upsert memory_db (VObj {[ "name" := VStr "s2" ]}) (VStr "1")
    = Resolved (VBool false) ∧
  trace (upsert memory_db
     {| params_id := VStr "1"; body := VObj {[ "name" := VStr "s2" ]} |})
  = [EUpsert (VObj {[ "name" := VStr "s2" ]}) (VStr "1")] ∧
  responses (trace (upsert memory_db
     {| params_id := VStr "1"; body := VObj {[ "name" := VStr "s2" ]} |})) = [] ∧
  result (upsert memory_db
     {| params_id := VStr "1"; body := VObj {[ "name" := VStr "s2" ]} |})
  = Normal (Resolved VNull).
Proof. split; [| split; [| split]]; reflexivity. Qed.

(** The same when the datastore reports zero affected rows. *)
Lemma upsert_zero_rows_unanswered :
  Sessions.upsert (const_db (Resolved (VNum 0)))
    (VObj {[ "name" := VStr "s2" ]}) (VStr "1") = Resolved (VNum 0) ∧
  trace (upsert (const_db (Resolved (VNum 0)))
     {| params_id := VStr "1"; body := VObj {[ "name" := VStr "s2" ]} |})
  = [EUpsert (VObj {[ "name" := VStr "s2" ]}) (VStr "1")] ∧
  responses (trace (upsert (const_db (Resolved (VNum 0)))
     {| params_id := VStr "1"; body := VObj {[ "name" := VStr "s2" ]} |})) = [].
Proof. split; [| split]; reflexivity. Qed.

(** ** patch *)

Lemma patch_run (db : Sessions.model)
    (jsonpatch_apply : value → value → completion (gmap string value))
    (req : request) (patches : value) :
  strip_id (body req) = Normal patches →
  trace (patch db jsonpatch_apply req)
    = EFind (params_id req) ::
      match Sessions.find db (params_id req) with
      | Rejected err => [ESend 500 err]
      | Resolved found =>
          let entity := if truthy found then found else VNull in
          (if truthy found then [] else [EEnd 404]) ++
          EApply entity patches ::
          match jsonpatch_apply entity patches with
          | Throw err => [ESend 500 err]
          | Normal fields => save_and_respond db (mutated entity fields)
          end
      end.
Proof.
  intros Hbody. run. settle Hbody.
  destruct (Sessions.find db (params_id req)) as [found | err]; run; [| done].
  destruct (truthy found) eqn:Hfound; run;
    destruct (jsonpatch_apply _ patches) as [fields | err]; run; try done.
  - destruct found; try discriminate Hfound; cbn; run; try done.
    destruct (Sessions.save db _) as [v | err]; run; [by destruct (truthy v) | done].
Qed.

Lemma patch_applies_stripped (db : Sessions.model)
    (jsonpatch_apply : value → value → completion (gmap string value))
    (req : request) (patches entity document : value) :
  strip_id (body req) = Normal patches →
  EApply entity document ∈ trace (patch db jsonpatch_apply req) →
  document = patches.
Proof.
  intros Hbody. rewrite (patch_run _ _ _ _ Hbody).
  destruct (Sessions.find db (params_id req)) as [found | err]; cbn;
    [| intros H; members H; congruence].
  assert (Hsave : ∀ e, EApply entity document ∈ save_and_respond db e → False).
  { intros e H. unfold save_and_respond in H.
    destruct e; try (members H; congruence).
    destruct (Sessions.save db _) as [v | err];
      [destruct (truthy v) |]; members H; congruence. }
  destruct (truthy found); cbn;
    destruct (jsonpatch_apply _ patches) as [fields | err]; intros H;
    repeat (apply elem_of_cons in H; destruct H as [H | H]);
    try congruence; try (by apply Hsave in H); by apply elem_of_nil in H.
Qed.

(** C3: when the record exists and the patch library refuses the document,
    [patch] does not call [save] and answers 500 with the library's error. *)
Theorem patch_invalid_document
    (db : Sessions.model)
    (jsonpatch_apply : value → value → completion (gmap string value))
    (req : request) (patches : value) (fields : gmap string value) (err : value) :
  strip_id (body req) = Normal patches →
  Sessions.find db (params_id req) = Resolved (VObj fields) →
  jsonpatch_apply (VObj fields) patches = Throw err →
  trace (patch db jsonpatch_apply req)
    = [EFind (params_id req); EApply (VObj fields) patches; ESend 500 err] ∧
  saves (trace (patch db jsonpatch_apply req)) = [] ∧
  responses (trace (patch db jsonpatch_apply req)) = [ESend 500 err].
Proof.
  intros Hbody Hfind Hthrow.
  rewrite (patch_run _ _ _ _ Hbody), Hfind. cbn. by rewrite Hthrow.
Qed.

Lemma patch_invalid_document_witness :
  trace (patch memory_db sample_jsonpatch
     {| params_id := VStr "1";
        body := VArr [replace_op "/nme" (VStr "s2")] |})
  = [EFind (VStr "1");
     EApply stored_session (VArr [replace_op "/nme" (VStr "s2")]);
     ESend 500 (patch_error "OPERATION_PATH_UNRESOLVABLE")].
Proof.
  destruct (patch_invalid_document memory_db sample_jsonpatch
              {| params_id := VStr "1";
                 body := VArr [replace_op "/nme" (VStr "s2")] |}
              (VArr [replace_op "/nme" (VStr "s2")])
              {[ "id" := VNum 1; "name" := VStr "s1" ]}
              (patch_error "OPERATION_PATH_UNRESOLVABLE"))
    as [Hrun _]; [reflexivity | reflexivity | reflexivity | exact Hrun].
Defined.

(** The chain of [patch] when no record matches: after the 404,
    [patchUpdates] still runs on [null]; the library throws or
    [null.save()] does, and [handleError] writes a 500. *)
Lemma patch_missing_run (db : Sessions.model)
    (jsonpatch_apply : value → value → completion (gmap string value))
    (req : request) (patches : value) :
  strip_id (body req) = Normal patches →
  Sessions.find db (params_id req) = Resolved VNull →
  ∃ err,
    trace (patch db jsonpatch_apply req)
      = [EFind (params_id req); EEnd 404; EApply VNull patches; ESend 500 err].
Proof.
  intros Hbody Hfind. rewrite (patch_run _ _ _ _ Hbody), Hfind. cbn.
  destruct (jsonpatch_apply VNull patches) as [fields | err]; cbn; eauto.
Qed.

(** C2, on the code: for an id without a record [patch] never calls [save]
    and answers 404 with an empty body, but that is not its only write to the
    response: whatever the patch library does with [null], the chain goes on
    to [handleError], which writes a 500. *)
Theorem patch_missing_writes_500_after_404
    (jsonpatch_apply : value → value → completion (gmap string value)) :
  ∃ err,
    trace (patch memory_db jsonpatch_apply
             {| params_id := VStr "9"; body := VArr [] |})
      = [EFind (VStr "9"); EEnd 404; EApply VNull (VArr []); ESend 500 err] ∧
    saves (trace (patch memory_db jsonpatch_apply
                    {| params_id := VStr "9"; body := VArr [] |})) = [] ∧
    responses (trace (patch memory_db jsonpatch_apply
                        {| params_id := VStr "9"; body := VArr [] |}))
      = [EEnd 404; ESend 500 err].
Proof.
  destruct (patch_missing_run memory_db jsonpatch_apply
              {| params_id := VStr "9"; body := VArr [] |} (VArr []))
    as [err Hrun]; [reflexivity | reflexivity |].
  exists err. by rewrite Hrun.
Qed.

Example patch_missing_with_sample_library :
  trace (patch memory_db sample_jsonpatch
           {| params_id := VStr "9"; body := VArr [] |})
  = [EFind (VStr "9"); EEnd 404; EApply VNull (VArr []);
     ESend 500 (type_error "Cannot read property 'save' of null")].
Proof. reflexivity. Qed.

(** The sibling chain guards the missing record: [destroy] stops after the
    404. *)
Example destroy_missing_stops :
  trace (destroy memory_db {| params_id := VStr "9"; body := VUndefined |})
  = [EFind (VStr "9"); EEnd 404].
Proof. reflexivity. Qed.

(** ** The [id] of a record *)

(** C1, as the code has it: when the body carries a truthy [id], [upsert]
    and [patch] delete it before they go on: the data handed to the
    datastore's upsert and every document handed to the patch library have no
    [id] member. *)
Theorem truthy_id_is_stripped
    (db : Sessions.model)
    (jsonpatch_apply : value → value → completion (gmap string value))
    (req : request) (id : value) :
  get_id (body req) = Normal id → truthy id = true →
  (∃ data, upserts (trace (upsert db req)) = [(data, params_id req)] ∧
           get_id data = Normal VUndefined) ∧
  (∀ entity document,
     EApply entity document ∈ trace (patch db jsonpatch_apply req) →
     get_id document = Normal VUndefined).
Proof.
  intros Hid Ht.
  destruct (body req) as [| | | | | | fields | |] eqn:Hbody;
    cbn in Hid; try (injection Hid as <-; discriminate Ht); try discriminate Hid.
  destruct (fields !! "id") as [id' |] eqn:Hfield; cbn in Hid;
    injection Hid as <-; [| discriminate Ht].
  split.
  - exists (VObj (delete "id" fields)).
    split; [by eapply upsert_truthy_id_run | apply get_id_deleted].
  - intros entity document Hin.
    apply (patch_applies_stripped _ _ _ (VObj (delete "id" fields))) in Hin.
    + subst document. apply get_id_deleted.
    + rewrite Hbody. by eapply strip_id_truthy.
Qed.

Lemma truthy_id_is_stripped_witness :
  (∃ data,
     upserts (trace (upsert memory_db
        {| params_id := VStr "1";
           body := VObj {[ "id" := VNum 7; "name" := VStr "s2" ]} |}))
       = [(data, VStr "1")] ∧
     get_id data = Normal VUndefined) ∧
  get_id (VObj {[ "name" := VStr "s2" ]}) = Normal VUndefined.
Proof.
  destruct (truthy_id_is_stripped memory_db sample_jsonpatch
              {| params_id := VStr "1";
                 body := VObj {[ "id" := VNum 7; "name" := VStr "s2" ]} |}
              (VNum 7))
    as [Hupsert Hpatch]; [reflexivity | reflexivity |].
  split; [exact Hupsert |].
  apply (Hpatch stored_session (VObj {[ "name" := VStr "s2" ]})).
  apply elem_of_cons; right. apply elem_of_cons; left. reflexivity.
Defined.

(** C1 fails on a falsy [id]: an upsert at [/api/session/1] whose body says
    [id: 0] hands that [id] to the datastore. *)
Lemma falsy_id_reaches_datastore :
  trace (upsert memory_db
     {| params_id := VStr "1";
        body := VObj {[ "id" := VNum 0; "name" := VStr "s1" ]} |})
  = [EUpsert (VObj {[ "id" := VNum 0; "name" := VStr "s1" ]}) (VStr "1")] ∧
  get_id (VObj {[ "id" := VNum 0; "name" := VStr "s1" ]}) = Normal (VNum 0) ∧
  get_id (VObj {[ "id" := VNum 0; "name" := VStr "s1" ]}) ≠ Normal VUndefined.
Proof. split; [reflexivity | split; [reflexivity | discriminate]]. Qed.

(** The same holds of [patch] for any [id], through the document itself: the
    body of a patch request is an array of operations, which has no [id]
    member to delete, and an operation on [/id] is applied like any other.
    With a library that implements [replace], the entity that is saved has
    the client's [id]. *)
Example patch_replaces_id :
  saves (trace (patch memory_db sample_jsonpatch
     {| params_id := VStr "1"; body := VArr [replace_op "/id" (VNum 99)] |}))
  = [VObj {[ "id" := VNum 99; "name" := VStr "s1" ]}].
Proof. reflexivity. Qed.

(** ** Datastore failures *)

(** C9: whatever error the datastore rejects with, in whichever handler and
    at whichever of its calls, the handler writes one response: status 500
    with that error as the body. *)
Theorem datastore_failure_is_500
    (db : Sessions.model)
    (jsonpatch_apply : value → value → completion (gmap string value))
    (req : request) (err : value) :
  (Sessions.findAll db = Rejected err →
     trace (index db req) = [EFindAll; ESend 500 err]) ∧
  (Sessions.find db (params_id req) = Rejected err →
     trace (show db req) = [EFind (params_id req); ESend 500 err]) ∧
  (Sessions.create db (body req) = Rejected err →
     trace (create db req) = [ECreate (body req); ESend 500 err]) ∧
  (∀ data, strip_id (body req) = Normal data →
     Sessions.upsert db data (params_id req) = Rejected err →
     trace (upsert db req) = [EUpsert data (params_id req); ESend 500 err]) ∧
  (∀ patches, strip_id (body req) = Normal patches →
     Sessions.find db (params_id req) = Rejected err →
     trace (patch db jsonpatch_apply req)
       = [EFind (params_id req); ESend 500 err]) ∧
  (∀ patches fields fields',
     strip_id (body req) = Normal patches →
     Sessions.find db (params_id req) = Resolved (VObj fields) →
     jsonpatch_apply (VObj fields) patches = Normal fields' →
     Sessions.save db (VObj fields') = Rejected err →
     trace (patch db jsonpatch_apply req)
       = [EFind (params_id req); EApply (VObj fields) patches;
          ESave (VObj fields'); ESend 500 err]) ∧
  (Sessions.find db (params_id req) = Rejected err →
     trace (destroy db req) = [EFind (params_id req); ESend 500 err]) ∧
  (∀ fields,
     Sessions.find db (params_id req) = Resolved (VObj fields) →
     Sessions.destroy db (VObj fields) = Rejected err →
     trace (destroy db req)
       = [EFind (params_id req); EDestroy (VObj fields); ESend 500 err]).
Proof.
  repeat apply conj.
  - intros H. run. by settle H.
  - intros H. run. by settle H.
  - intros H. run. by settle H.
  - intros data Hbody H. rewrite (upsert_run _ _ _ Hbody). by rewrite H.
  - intros patches Hbody H. rewrite (patch_run _ _ _ _ Hbody). by rewrite H.
  - intros patches fields fields' Hbody Hfind Happly Hsave.
    rewrite (patch_run _ _ _ _ Hbody), Hfind. cbn. rewrite Happly. cbn.
    by rewrite Hsave.
  - intros H. run. by settle H.
  - intros fields Hfind H. run. settle Hfind. by settle H.
Qed.

Lemma datastore_failure_is_500_witness :
  trace (index offline_db rename_request)
    = [EFindAll; ESend 500 connection_error] ∧
  trace (show offline_db rename_request)
    = [EFind (VStr "1"); ESend 500 connection_error] ∧
  trace (create offline_db rename_request)
    = [ECreate (body rename_request); ESend 500 connection_error] ∧
  trace (upsert offline_db rename_request)
    = [EUpsert (body rename_request) (VStr "1"); ESend 500 connection_error] ∧
  trace (patch offline_db sample_jsonpatch rename_request)
    = [EFind (VStr "1"); ESend 500 connection_error] ∧
  trace (patch readonly_db sample_jsonpatch rename_request)
    = [EFind (VStr "1"); EApply stored_session (body rename_request);
       ESave renamed_session; ESend 500 write_error] ∧
  trace (destroy offline_db rename_request)
    = [EFind (VStr "1"); ESend 500 connection_error] ∧
  trace (destroy readonly_db rename_request)
    = [EFind (VStr "1"); EDestroy stored_session; ESend 500 write_error].
Proof.
  destruct (datastore_failure_is_500 offline_db sample_jsonpatch
              rename_request connection_error)
    as (Hindex & Hshow & Hcreate & Hupsert & Hpatch & _ & Hdestroy & _).
  destruct (datastore_failure_is_500 readonly_db sample_jsonpatch
              rename_request write_error)
    as (_ & _ & _ & _ & _ & Hsave & _ & Hremove).
  split; [apply Hindex; reflexivity |].
  split; [apply Hshow; reflexivity |].
  split; [apply Hcreate; reflexivity |].
  split; [apply (Hupsert (body rename_request)); reflexivity |].
  split; [apply (Hpatch (body rename_request)); reflexivity |].
  split.
  { apply (Hsave (body rename_request)
             {[ "id" := VNum 1; "name" := VStr "s1" ]}
             {[ "id" := VNum 1; "name" := VStr "s2" ]}); reflexivity. }
  split; [apply Hdestroy; reflexivity |].
  apply (Hremove {[ "id" := VNum 1; "name" := VStr "s1" ]}); reflexivity.
Defined.

(** ** Every run of the other chains *)

Lemma index_run (db : Sessions.model) (req : request) :
  trace (index db req)
    = EFindAll ::
      match Sessions.findAll db with
      | Resolved v => if truthy v then [EJson 200 v] else []
      | Rejected err => [ESend 500 err]
      end.
Proof.
  run. destruct (Sessions.findAll db) as [v | err]; run;
    [by destruct (truthy v) | done].
Qed.

Lemma show_run (db : Sessions.model) (req : request) :
  trace (show db req)
    = EFind (params_id req) ::
      match Sessions.find db (params_id req) with
      | Resolved v => if truthy v then [EJson 200 v] else [EEnd 404]
      | Rejected err => [ESend 500 err]
      end.
Proof.
  run. destruct (Sessions.find db (params_id req)) as [v | err]; run;
    [| done].
  destruct (truthy v) eqn:Hv; run; [| done]. by settle Hv.
Qed.

Lemma create_run (db : Sessions.model) (req : request) :
  trace (create db req)
    = ECreate (body req) ::
      match Sessions.create db (body req) with
      | Resolved v => if truthy v then [EJson 201 v] else []
      | Rejected err => [ESend 500 err]
      end.
Proof.
  run. destruct (Sessions.create db (body req)) as [v | err]; run;
    [by destruct (truthy v) | done].
Qed.

Lemma destroy_run (db : Sessions.model) (req : request) :
  trace (destroy db req)
    = EFind (params_id req) ::
      match Sessions.find db (params_id req) with
      | Resolved v => if truthy v then delete_and_respond db v else [EEnd 404]
      | Rejected err => [ESend 500 err]
      end.
Proof.
  run. destruct (Sessions.find db (params_id req)) as [v | err]; run; [| done].
  destruct (truthy v) eqn:Hv; run; [| done].
  settle Hv. unfold delete_and_respond.
  destruct v; try discriminate Hv; cbn; run; try done.
  by destruct (Sessions.destroy db _).
Qed.

Lemma unreadable_body_run (db : Sessions.model)
    (jsonpatch_apply : value → value → completion (gmap string value))
    (req : request) (exn : value) :
  strip_id (body req) = Throw exn →
  upsert db req [] = (Throw exn, []) ∧
  patch db jsonpatch_apply req [] = (Throw exn, []).
Proof. intros Hbody. unfold upsert, patch. by rewrite Hbody. Qed.

(** ** create, the answer *)

(** X1: when the datastore's [create] resolves, [create] answers 201 with
    the value it resolved with if that value is truthy, and writes nothing
    if it is falsy. *)
Theorem create_answers_201 (db : Sessions.model) (req : request) (v : value) :
  Sessions.create db (body req) = Resolved v →
  trace (create db req)
    = ECreate (body req) :: (if truthy v then [EJson 201 v] else []).
Proof. intros Hcreate. by rewrite create_run, Hcreate. Qed.

Lemma create_answers_201_witness :
  trace (create memory_db
     {| params_id := VUndefined; body := VObj {[ "name" := VStr "s2" ]} |})
  = [ECreate (VObj {[ "name" := VStr "s2" ]});
     EJson 201 (VObj {[ "id" := VNum 2; "name" := VStr "s2" ]})].
Proof.
  apply (create_answers_201 memory_db
           {| params_id := VUndefined; body := VObj {[ "name" := VStr "s2" ]} |}
           (VObj {[ "id" := VNum 2; "name" := VStr "s2" ]})).
  reflexivity.
Defined.

(** ** patch, the successful run *)

(** X2: when the record exists and the patch library applies the document,
    [patch] saves the patched entity and then answers 200 with what [save]
    resolved with (nothing if that is falsy). *)
Theorem patch_applies_then_saves
    (db : Sessions.model)
    (jsonpatch_apply : value → value → completion (gmap string value))
    (req : request) (patches : value) (fields fields' : gmap string value)
    (v : value) :
  strip_id (body req) = Normal patches →
  Sessions.find db (params_id req) = Resolved (VObj fields) →
  jsonpatch_apply (VObj fields) patches = Normal fields' →
  Sessions.save db (VObj fields') = Resolved v →
  trace (patch db jsonpatch_apply req)
    = [EFind (params_id req); EApply (VObj fields) patches; ESave (VObj fields')]
      ++ (if truthy v then [EJson 200 v] else []).
Proof.
  intros Hbody Hfind Happly Hsave.
  rewrite (patch_run _ _ _ _ Hbody), Hfind. cbn. rewrite Happly. cbn.
  by rewrite Hsave.
Qed.

Lemma patch_applies_then_saves_witness :
  trace (patch memory_db sample_jsonpatch rename_request)
  = [EFind (VStr "1"); EApply stored_session (body rename_request);
     ESave renamed_session; EJson 200 renamed_session].
Proof.
  apply (patch_applies_then_saves memory_db sample_jsonpatch rename_request
           (body rename_request)
           {[ "id" := VNum 1; "name" := VStr "s1" ]}
           {[ "id" := VNum 1; "name" := VStr "s2" ]}
           renamed_session); reflexivity.
Defined.

(** ** A missing body *)

(** X3: on a request whose body is [undefined] or [null], [upsert] and
    [patch] throw the TypeError of reading [id] before anything else: no call
    reaches the datastore or the patch library and no response is written. *)
Theorem missing_body_throws
    (db : Sessions.model)
    (jsonpatch_apply : value → value → completion (gmap string value))
    (req : request) :
  nullish (body req) = true →
  ∃ message,
    result (upsert db req) = Throw (type_error message) ∧
    trace (upsert db req) = [] ∧
    result (patch db jsonpatch_apply req) = Throw (type_error message) ∧
    trace (patch db jsonpatch_apply req) = [].
Proof.
  intros Hnull.
  assert (∃ message, strip_id (body req) = Throw (type_error message))
    as [message Hbody].
  { destruct (body req); try discriminate Hnull; cbn; eauto. }
  exists message.
  destruct (unreadable_body_run db jsonpatch_apply req _ Hbody) as [Hu Hp].
  unfold result, trace. by rewrite Hu, Hp.
Qed.

Lemma missing_body_throws_witness :
  ∃ message,
    result (upsert memory_db {| params_id := VStr "1"; body := VUndefined |})
      = Throw (type_error message) ∧
    trace (upsert memory_db {| params_id := VStr "1"; body := VUndefined |})
      = [] ∧
    result (patch memory_db sample_jsonpatch
              {| params_id := VStr "1"; body := VUndefined |})
      = Throw (type_error message) ∧
    trace (patch memory_db sample_jsonpatch
             {| params_id := VStr "1"; body := VUndefined |}) = [].
Proof.
  apply (missing_body_throws memory_db sample_jsonpatch
           {| params_id := VStr "1"; body := VUndefined |}).
  reflexivity.
Defined.

(** ** How often a handler answers *)

(** X4: [show] and [destroy] write exactly one response, whatever the
    datastore settles with. *)
Theorem show_destroy_answer_once (db : Sessions.model) (req : request) :
  length (responses (trace (show db req))) = 1%nat ∧
  length (responses (trace (destroy db req))) = 1%nat.
Proof.
  split.
  - rewrite show_run.
    destruct (Sessions.find db (params_id req)) as [v | err];
      [by destruct (truthy v) | done].
  - rewrite destroy_run.
    destruct (Sessions.find db (params_id req)) as [v | err]; [| done].
    destruct (truthy v); [| done].
    destruct v; cbn; try done. by destruct (Sessions.destroy db _).
Qed.

(** X5: [index] and [create] write at most one response, and none exactly
    when the datastore resolves with a falsy value. *)
Theorem index_create_unanswered (db : Sessions.model) (req : request) :
  (length (responses (trace (index db req))) ≤ 1)%nat ∧
  (responses (trace (index db req)) = [] ↔
     ∃ v, Sessions.findAll db = Resolved v ∧ truthy v = false) ∧
  (length (responses (trace (create db req))) ≤ 1)%nat ∧
  (responses (trace (create db req)) = [] ↔
     ∃ v, Sessions.create db (body req) = Resolved v ∧ truthy v = false).
Proof.
  rewrite index_run, create_run.
  destruct (Sessions.findAll db) as [v | err];
    [destruct (truthy v) eqn:Hv |];
    (destruct (Sessions.create db (body req)) as [w | err'];
       [destruct (truthy w) eqn:Hw |]);
    cbn; repeat split; try lia; try done; eauto;
    try (intros (? & [= <-] & ?); congruence);
    try (intros (? & [=] & ?)).
Qed.

(** ** The reads *)

(** X6: [index] and [show] make one call to the datastore, the read, and
    nothing else: no create, upsert, save or destroy. *)
Theorem reads_make_one_call (db : Sessions.model) (req : request) :
  datastore_calls (trace (index db req)) = [EFindAll] ∧
  datastore_calls (trace (show db req)) = [EFind (params_id req)].
Proof.
  rewrite index_run, show_run. split.
  - destruct (Sessions.findAll db) as [v | err]; [by destruct (truthy v) | done].
  - destruct (Sessions.find db (params_id req)) as [v | err];
      [by destruct (truthy v) | done].
Qed.

(** ** What gets deleted and saved *)

(** X7: [destroy] only ever deletes the entity that [find] resolved with for
    the id of the path. *)
Theorem destroy_only_found (db : Sessions.model) (req : request) (entity : value) :
  EDestroy entity ∈ trace (destroy db req) →
  Sessions.find db (params_id req) = Resolved entity.
Proof.
  rewrite destroy_run.
  destruct (Sessions.find db (params_id req)) as [v | err];
    [| intros H; members H; congruence].
  destruct (truthy v); [| intros H; members H; congruence].
  unfold delete_and_respond.
  destruct v; try (intros H; members H; congruence).
  destruct (Sessions.destroy db _); intros H; members H; congruence.
Qed.

Lemma destroy_only_found_witness :
  Sessions.find memory_db (VStr "1") = Resolved stored_session.
Proof.
  apply (destroy_only_found memory_db
           {| params_id := VStr "1"; body := VUndefined |} stored_session).
  apply elem_of_cons; right. apply elem_of_cons; left. reflexivity.
Defined.

(** X8: [patch] only ever saves a record that [find] resolved with, with the
    members the patch library gave it for the request's document: no save
    without a found record and an applied patch. *)
Theorem patch_saves_only_patched
    (db : Sessions.model)
    (jsonpatch_apply : value → value → completion (gmap string value))
    (req : request) (entity : value) :
  ESave entity ∈ trace (patch db jsonpatch_apply req) →
  ∃ patches fields fields',
    strip_id (body req) = Normal patches ∧
    Sessions.find db (params_id req) = Resolved (VObj fields) ∧
    jsonpatch_apply (VObj fields) patches = Normal fields' ∧
    entity = VObj fields'.
Proof.
  destruct (strip_id (body req)) as [patches | exn] eqn:Hbody.
  2: { destruct (unreadable_body_run db jsonpatch_apply req _ Hbody) as [_ Hp].
       unfold trace. rewrite Hp. cbn. intros H. by apply elem_of_nil in H. }
  rewrite (patch_run _ _ _ _ Hbody).
  destruct (Sessions.find db (params_id req)) as [found | err];
    [| intros H; members H; congruence].
  assert (Hnull : ∀ e, ESave entity ∈ save_and_respond db e →
                       ∃ fields', e = VObj fields' ∧ entity = e).
  { intros e H. unfold save_and_respond in H.
    destruct e; try (members H; congruence).
    exists fields. split; [done |].
    destruct (Sessions.save db _) as [v | err];
      [destruct (truthy v) |]; members H; congruence. }
  destruct (truthy found) eqn:Hfound; cbn;
    destruct (jsonpatch_apply _ patches) as [fields' | err] eqn:Happly;
    intros H;
    repeat (apply elem_of_cons in H; destruct H as [H | H]);
    try congruence; try (by apply elem_of_nil in H).
  apply Hnull in H as (saved & Hmut & ->).
  destruct found; cbn in Hmut; try discriminate Hmut.
  injection Hmut as <-. eauto 10.
Qed.

Lemma patch_saves_only_patched_witness :
  ∃ patches fields fields',
    strip_id (body rename_request) = Normal patches ∧
    Sessions.find memory_db (params_id rename_request) = Resolved (VObj fields) ∧
    sample_jsonpatch (VObj fields) patches = Normal fields' ∧
    renamed_session = VObj fields'.
Proof.
  apply (patch_saves_only_patched memory_db sample_jsonpatch rename_request).
  apply elem_of_cons; right. apply elem_of_cons; right.
  apply elem_of_cons; left. reflexivity.
Defined.

(** X9: [destroy] answers 204 only after the record was found and the
    datastore confirmed its deletion. *)
Theorem destroy_204_after_deletion
    (db : Sessions.model) (req : request) :
  EEnd 204 ∈ trace (destroy db req) →
  ∃ entity v,
    Sessions.find db (params_id req) = Resolved entity ∧
    Sessions.destroy db entity = Resolved v ∧
    trace (destroy db req)
      = [EFind (params_id req); EDestroy entity; EEnd 204].
Proof.
  rewrite destroy_run.
  destruct (Sessions.find db (params_id req)) as [found | err];
    [| intros H; members H; congruence].
  destruct (truthy found); [| intros H; members H; congruence].
  unfold delete_and_respond.
  destruct found; try (intros H; members H; congruence).
  destruct (Sessions.destroy db _) as [v | err] eqn:Hdel;
    intros H; [eauto | members H; congruence].
Qed.

Lemma destroy_204_after_deletion_witness :
  ∃ entity v,
    Sessions.find memory_db (VStr "1") = Resolved entity ∧
    Sessions.destroy memory_db entity = Resolved v ∧
    trace (destroy memory_db {| params_id := VStr "1"; body := VUndefined |})
      = [EFind (VStr "1"); EDestroy entity; EEnd 204].
Proof.
  apply (destroy_204_after_deletion memory_db
           {| params_id := VStr "1"; body := VUndefined |}).
  apply elem_of_cons; right. apply elem_of_cons; right.
  apply elem_of_cons; left. reflexivity.
Defined.

(** ** upsert, what reaches the datastore *)

Lemma strip_id_falsy (b data : value) :
  strip_id b = Normal data →
  ∃ id, get_id data = Normal id ∧ truthy id = false.
Proof.
  unfold strip_id. destruct (get_id b) as [id | exn] eqn:Hid; [| done].
  destruct (truthy id) eqn:Ht; intros [= <-].
  - destruct b; cbn in Hid; try (injection Hid as <-; discriminate Ht);
      try discriminate Hid.
    exists VUndefined. split; [apply get_id_deleted | done].
  - eauto.
Qed.

(** X10: whatever the body, the data [upsert] hands to the datastore has no
    truthy [id] (it has none, or a falsy one such as [0]), and the filter is
    the id of the path. *)
Theorem upsert_never_passes_truthy_id
    (db : Sessions.model) (req : request) (data where_id : value) :
  (data, where_id) ∈ upserts (trace (upsert db req)) →
  where_id = params_id req ∧
  ∃ id, get_id data = Normal id ∧ truthy id = false.
Proof.
  destruct (strip_id (body req)) as [stripped | exn] eqn:Hbody.
  - rewrite (upsert_run _ _ _ Hbody).
    assert (upserts (EUpsert stripped (params_id req) ::
              match Sessions.upsert db stripped (params_id req) with
              | Resolved v => if truthy v then [EJson 200 v] else []
              | Rejected err => [ESend 500 err]
              end) = [(stripped, params_id req)]) as ->.
    { destruct (Sessions.upsert db _ _) as [v | err];
        [by destruct (truthy v) | done]. }
    intros [= -> ->]%list_elem_of_singleton.
    split; [done | by eapply strip_id_falsy].
  - unfold trace, upsert. rewrite Hbody. cbn. intros H. by apply elem_of_nil in H.
Qed.

Lemma upsert_never_passes_truthy_id_witness :
  VStr "1" = VStr "1" ∧
  ∃ id, get_id (VObj {[ "id" := VNum 0; "name" := VStr "s2" ]}) = Normal id ∧
        truthy id = false.
Proof.
  apply (upsert_never_passes_truthy_id memory_db
           {| params_id := VStr "1";
              body := VObj {[ "id" := VNum 0; "name" := VStr "s2" ]} |}).
  apply list_elem_of_singleton. reflexivity.
Defined.

(** X11: a body that has no [id], or a falsy one, goes to the datastore's
    upsert as it is. *)
Theorem upsert_forwards_body_without_id
    (db : Sessions.model) (req : request) (id : value) :
  get_id (body req) = Normal id → truthy id = false →
  upserts (trace (upsert db req)) = [(body req, params_id req)].
Proof.
  intros Hid Ht.
  rewrite (upsert_run db req (body req)).
  - destruct (Sessions.upsert db _ _) as [v | err];
      [by destruct (truthy v) | done].
  - unfold strip_id. by rewrite Hid, Ht.
Qed.

Lemma upsert_forwards_body_without_id_witness :
  upserts (trace (upsert memory_db
     {| params_id := VStr "2"; body := VObj {[ "name" := VStr "s2" ]} |}))
  = [(VObj {[ "name" := VStr "s2" ]}, VStr "2")].
Proof.
  apply (upsert_forwards_body_without_id memory_db
           {| params_id := VStr "2"; body := VObj {[ "name" := VStr "s2" ]} |}
           VUndefined); reflexivity.
Defined.

(** X12: [upsert] makes one call to the datastore, the upsert: it does not
    look the record up first and never calls create, save or destroy. *)
Theorem upsert_makes_one_call
    (db : Sessions.model) (req : request) (data : value) :
  strip_id (body req) = Normal data →
  datastore_calls (trace (upsert db req)) = [EUpsert data (params_id req)].
Proof.
  intros Hbody. rewrite (upsert_run _ _ _ Hbody).
  destruct (Sessions.upsert db _ _) as [v | err];
    [by destruct (truthy v) | done].
Qed.

Lemma upsert_makes_one_call_witness :
  datastore_calls (trace (upsert memory_db
     {| params_id := VStr "2"; body := VObj {[ "name" := VStr "s2" ]} |}))
  = [EUpsert (VObj {[ "name" := VStr "s2" ]}) (VStr "2")].
Proof.
  apply (upsert_makes_one_call memory_db
           {| params_id := VStr "2"; body := VObj {[ "name" := VStr "s2" ]} |}
           (VObj {[ "name" := VStr "s2" ]})).
  reflexivity.
Defined.

(** ** Not found *)

(** X13: [show] and [destroy] write the 404 exactly when [find] resolves
    with a falsy value. *)
Theorem not_found_iff_falsy (db : Sessions.model) (req : request) :
  (EEnd 404 ∈ trace (show db req) ↔
     ∃ v, Sessions.find db (params_id req) = Resolved v ∧ truthy v = false) ∧
  (EEnd 404 ∈ trace (destroy db req) ↔
     ∃ v, Sessions.find db (params_id req) = Resolved v ∧ truthy v = false).
Proof.
  rewrite show_run, destroy_run.
  destruct (Sessions.find db (params_id req)) as [v | err].
  - destruct (truthy v) eqn:Hv.
    + split; (split; [| intros (? & [= <-] & ?); congruence]).
      * intros H; members H; congruence.
      * unfold delete_and_respond. destruct v;
          try (intros H; members H; congruence).
        destruct (Sessions.destroy db _); intros H; members H; congruence.
    + split; (split; [eauto |]); intros _;
        apply elem_of_cons; right; apply elem_of_cons; by left.
  - split; (split; [intros H; members H; congruence | by intros (? & [=] & ?)]).
Qed.

(** ** Status codes and the order of calls *)

(** X14: the status codes a handler can write: [index] and [upsert] only 200
    and 500, [create] only 201 and 500, [show] and [patch] only 200, 404 and
    500, [destroy] only 204, 404 and 500. *)
Theorem handler_status_codes
    (db : Sessions.model)
    (jsonpatch_apply : value → value → completion (gmap string value))
    (req : request) :
  statuses (trace (index db req)) ⊆ [200; 500] ∧
  statuses (trace (show db req)) ⊆ [200; 404; 500] ∧
  statuses (trace (create db req)) ⊆ [201; 500] ∧
  statuses (trace (upsert db req)) ⊆ [200; 500] ∧
  statuses (trace (patch db jsonpatch_apply req)) ⊆ [200; 404; 500] ∧
  statuses (trace (destroy db req)) ⊆ [204; 404; 500].
Proof.
  rewrite index_run, show_run, create_run, destroy_run.
  split; [| split; [| split; [| split; [| split]]]].
  - destruct (Sessions.findAll db) as [v | err];
      [destruct (truthy v) |]; within.
  - destruct (Sessions.find db (params_id req)) as [v | err];
      [destruct (truthy v) |]; within.
  - destruct (Sessions.create db (body req)) as [v | err];
      [destruct (truthy v) |]; within.
  - destruct (strip_id (body req)) as [data | exn] eqn:Hbody.
    + rewrite (upsert_run _ _ _ Hbody).
      destruct (Sessions.upsert db _ _) as [v | err];
        [destruct (truthy v) |]; within.
    + unfold trace, upsert. rewrite Hbody. within.
  - destruct (strip_id (body req)) as [patches | exn] eqn:Hbody.
    + rewrite (patch_run _ _ _ _ Hbody).
      assert (Hsave : ∀ e, statuses (save_and_respond db e) ⊆ [200; 404; 500]).
      { intros e. unfold save_and_respond. destruct e; try within.
        destruct (Sessions.save db _) as [v | err];
          [destruct (truthy v) |]; within. }
      destruct (Sessions.find db (params_id req)) as [found | err]; [| within].
      destruct (truthy found); cbn;
        (destruct (jsonpatch_apply _ patches) as [fields | err]; [| within]).
      * apply Hsave.
      * within.
    + unfold trace, patch. rewrite Hbody. within.
  - destruct (Sessions.find db (params_id req)) as [found | err]; [| within].
    destruct (truthy found); [| within].
    unfold delete_and_respond. destruct found; try within.
    destruct (Sessions.destroy db _); within.
Qed.

(** X15: [patch] and [destroy] look the record up first.  After the find,
    [patch] calls the datastore at most once more, to save, and [destroy] at
    most once more, to delete; neither makes any other call to the
    datastore.  [patch] makes no call at all exactly when the body cannot be
    read ([undefined] or [null]). *)
Theorem find_comes_first
    (db : Sessions.model)
    (jsonpatch_apply : value → value → completion (gmap string value))
    (req : request) :
  datastore_calls (trace (patch db jsonpatch_apply req))
    = (if nullish (body req) then []
       else EFind (params_id req) ::
            map ESave (saves (trace (patch db jsonpatch_apply req)))) ∧
  (length (saves (trace (patch db jsonpatch_apply req))) ≤ 1)%nat ∧
  datastore_calls (trace (destroy db req))
    = EFind (params_id req) :: map EDestroy (destroys (trace (destroy db req))) ∧
  (length (destroys (trace (destroy db req))) ≤ 1)%nat.
Proof.
  unfold datastore_calls.
  assert (Hpatch :
    List.filter is_datastore_call (trace (patch db jsonpatch_apply req))
      = (if nullish (body req) then []
         else EFind (params_id req) ::
              map ESave (saves (trace (patch db jsonpatch_apply req)))) ∧
    (length (saves (trace (patch db jsonpatch_apply req))) ≤ 1)%nat).
  { destruct (nullish (body req)) eqn:Hnull.
    - assert (∃ exn, strip_id (body req) = Throw exn) as [exn Hbody].
      { destruct (body req); try discriminate Hnull; cbn; eauto. }
      destruct (unreadable_body_run db jsonpatch_apply req _ Hbody) as [_ Hp].
      unfold trace. rewrite Hp. cbn. split; [done | cbn; lia].
    - apply strip_id_readable in Hnull as [patches Hbody].
      rewrite (patch_run _ _ _ _ Hbody).
      assert (Hsave : ∀ e,
        List.filter is_datastore_call (save_and_respond db e)
          = map ESave (saves (save_and_respond db e)) ∧
        (length (saves (save_and_respond db e)) ≤ 1)%nat).
      { intros e. unfold save_and_respond.
        destruct e; cbn; try (split; [done | cbn; lia]).
        destruct (Sessions.save db _) as [v | err];
          [destruct (truthy v) |]; cbn; (split; [done | cbn; lia]). }
      destruct (Sessions.find db (params_id req)) as [found | err];
        [| cbn; split; [done | cbn; lia]].
      destruct (truthy found); cbn;
        (destruct (jsonpatch_apply _ patches) as [fields | err];
           [| cbn; split; [done | cbn; lia]]).
      + destruct (Hsave (mutated found fields)) as [-> Hlen]. by split.
      + split; [done | cbn; lia]. }
  destruct Hpatch as [Hcalls Hlen].
  split; [exact Hcalls | split; [exact Hlen |]].
  rewrite destroy_run.
  destruct (Sessions.find db (params_id req)) as [found | err];
    [| cbn; split; [done | cbn; lia]].
  destruct (truthy found); [| cbn; split; [done | cbn; lia]].
  unfold delete_and_respond. destruct found; cbn; try (split; [done | cbn; lia]).
  destruct (Sessions.destroy db _); cbn; (split; [done | cbn; lia]).
Qed.

(** ** Where a success body comes from *)

(** X16: a handler writes a JSON body only when the datastore resolved with
    it: [index] what [findAll] resolved with, [show] what [find] resolved
    with, [create] what [create] resolved with, all with their success
    status; [patch] what [save] resolved with for an entity it saved. *)
Theorem json_body_from_datastore
    (db : Sessions.model)
    (jsonpatch_apply : value → value → completion (gmap string value))
    (req : request) (c : Z) (v : value) :
  (EJson c v ∈ trace (index db req) →
     c = 200 ∧ Sessions.findAll db = Resolved v) ∧
  (EJson c v ∈ trace (show db req) →
     c = 200 ∧ Sessions.find db (params_id req) = Resolved v) ∧
  (EJson c v ∈ trace (create db req) →
     c = 201 ∧ Sessions.create db (body req) = Resolved v) ∧
  (EJson c v ∈ trace (patch db jsonpatch_apply req) →
     c = 200 ∧
     ∃ entity, ESave entity ∈ trace (patch db jsonpatch_apply req) ∧
               Sessions.save db entity = Resolved v).
Proof.
  rewrite index_run, show_run, create_run.
  split; [| split; [| split]].
  - destruct (Sessions.findAll db) as [w | err];
      [destruct (truthy w) |]; intros H; members H; by simplify_eq.
  - destruct (Sessions.find db (params_id req)) as [w | err];
      [destruct (truthy w) |]; intros H; members H; by simplify_eq.
  - destruct (Sessions.create db (body req)) as [w | err];
      [destruct (truthy w) |]; intros H; members H; by simplify_eq.
  - destruct (strip_id (body req)) as [patches | exn] eqn:Hbody.
    2: { destruct (unreadable_body_run db jsonpatch_apply req _ Hbody) as [_ Hp].
         unfold trace. rewrite Hp. cbn. intros H. by apply elem_of_nil in H. }
    rewrite (patch_run _ _ _ _ Hbody).
    assert (Hsave : ∀ e, EJson c v ∈ save_and_respond db e →
                         c = 200 ∧ ESave e ∈ save_and_respond db e ∧
                         Sessions.save db e = Resolved v).
    { intros e H. unfold save_and_respond in *.
      destruct e; try (members H; congruence).
      destruct (Sessions.save db _) as [w | err];
        [destruct (truthy w) |]; members H; simplify_eq.
      split; [done | split; [| done]]. apply elem_of_cons. by left. }
    destruct (Sessions.find db (params_id req)) as [found | err];
      [| intros H; members H; congruence].
    destruct (truthy found); cbn;
      (destruct (jsonpatch_apply _ patches) as [fields | err];
         [| intros H; members H; congruence]);
      intros H;
      repeat (apply elem_of_cons in H; destruct H as [H | H]);
      try congruence; try (by apply elem_of_nil in H).
    apply Hsave in H as (-> & Hin & Hres).
    split; [done |]. eexists. split; [| exact Hres].
    by do 2 (apply elem_of_cons; right).
Qed.

Lemma json_body_from_datastore_witness :
  (200 = 200 ∧ Sessions.findAll memory_db = Resolved (VArr [stored_session])) ∧
  (200 = 200 ∧ Sessions.find memory_db (VStr "1") = Resolved stored_session) ∧
  (201 = 201 ∧
   Sessions.create memory_db (VObj {[ "name" := VStr "s2" ]})
     = Resolved (VObj {[ "id" := VNum 2; "name" := VStr "s2" ]})) ∧
  (200 = 200 ∧
   ∃ entity,
     ESave entity ∈ trace (patch memory_db sample_jsonpatch rename_request) ∧
     Sessions.save memory_db entity = Resolved renamed_session).
Proof.
  destruct (json_body_from_datastore memory_db sample_jsonpatch
              {| params_id := VUndefined;
                 body := VObj {[ "name" := VStr "s2" ]} |}
              201 (VObj {[ "id" := VNum 2; "name" := VStr "s2" ]}))
    as (_ & _ & Hcreate & _).
  destruct (json_body_from_datastore memory_db sample_jsonpatch
              rename_request 200 (VArr [stored_session])) as (Hindex & _).
  destruct (json_body_from_datastore memory_db sample_jsonpatch
              rename_request 200 stored_session) as (_ & Hshow & _).
  destruct (json_body_from_datastore memory_db sample_jsonpatch
              rename_request 200 renamed_session) as (_ & _ & _ & Hpatch).
  split; [| split; [| split]].
  - apply Hindex. apply elem_of_cons; right. apply elem_of_cons; left.
    reflexivity.
  - apply Hshow. apply elem_of_cons; right. apply elem_of_cons; left.
    reflexivity.
  - apply Hcreate. apply elem_of_cons; right. apply elem_of_cons; left.
    reflexivity.
  - apply Hpatch. do 3 (apply elem_of_cons; right). apply elem_of_cons; left.
    reflexivity.
Defined.
